(** * Dockit: schema-extraction server and ONNX export script

  A shallow embedding of [schema-extraction-server.py] and
  [scripts/export-onnx.py], with the properties their specification
  states about them.

  Conventions of the embedding.
  - A Python [str] is a [string]; the case mappings and the whitespace
    class are those of Python's [str] methods on the ASCII range
    (code points below 128).  Characters from 128 on are carried
    along unchanged and are never whitespace.
  - A Python object that travels through JSON is a [value]; a [dict]
    keeps its items in insertion order, as Python does.
  - A call that may raise returns a [result]; the handler's [try] /
    [except] is [try_except].
  - [datetime.now()] reads the clock of the environment; [print]
    appends a line to the standard output, unless the console
    refuses the line and the call raises. *)

From Stdlib Require Import ZArith Lia Ascii String DecimalString.
From stdpp Require Import base list strings gmap.

Local Open Scope string_scope.
Local Open Scope nat_scope.

Set Warnings "-register-all".

(** ** Python strings *)

Module PyStr.

Definition code (c : ascii) : nat := nat_of_ascii c.

(** [str.isspace] on one ASCII character: TAB, LF, VT, FF, CR, the
    four separators FS, GS, RS, US, and the space. *)
Definition isspace (c : ascii) : bool :=
  let n := code c in
  ((9 <=? n) && (n <=? 13)) || ((28 <=? n) && (n <=? 31)) || (n =? 32).

Definition isupper (c : ascii) : bool :=
  let n := code c in (65 <=? n) && (n <=? 90).

Definition islower (c : ascii) : bool :=
  let n := code c in (97 <=? n) && (n <=? 122).

Definition lower_char (c : ascii) : ascii :=
  if isupper c then ascii_of_nat (code c + 32) else c.

Definition upper_char (c : ascii) : ascii :=
  if islower c then ascii_of_nat (code c - 32) else c.

Fixpoint map_chars (f : ascii -> ascii) (s : string) : string :=
  match s with
  | EmptyString => EmptyString
  | String c s' => String (f c) (map_chars f s')
  end.

(** [s.lower()] *)
Definition lower (s : string) : string := map_chars lower_char s.

(** [s.capitalize()]: first character upper-cased, the rest
    lower-cased. *)
Definition capitalize (s : string) : string :=
  match s with
  | EmptyString => EmptyString
  | String c s' => String (upper_char c) (lower s')
  end.

(** [s.startswith(k)] *)
Fixpoint startswith (k s : string) : bool :=
  match k, s with
  | EmptyString, _ => true
  | String _ _, EmptyString => false
  | String a k', String b s' =>
      if Ascii.eqb a b then startswith k' s' else false
  end.

(** [k in s]: [k] occurs in [s] as a contiguous substring. *)
Fixpoint contains (k s : string) : bool :=
  startswith k s ||
  match s with
  | EmptyString => false
  | String _ s' => contains k s'
  end.

(** [s.replace(old, new)] for a non-empty [old]: the occurrences of
    [old] are replaced from left to right, without overlap.  [skip]
    counts the characters of a matched occurrence still to pass. *)
Fixpoint replace_from (skip : nat) (old new s : string) : string :=
  match s with
  | EmptyString => EmptyString
  | String c s' =>
      match skip with
      | S k => replace_from k old new s'
      | O =>
          if startswith old s
          then new +:+ replace_from (String.length old - 1) old new s'
          else String c (replace_from 0 old new s')
      end
  end.

Definition replace (old new s : string) : string :=
  replace_from 0 old new s.

Fixpoint rev_append (acc s : string) : string :=
  match acc with
  | EmptyString => s
  | String c acc' => rev_append acc' (String c s)
  end.

Definition rev (s : string) : string := rev_append s EmptyString.

Definition flush (word : string) (rest : list string) : list string :=
  match word with
  | EmptyString => rest
  | _ => rev word :: rest
  end.

(** [s.split()]: the maximal runs of non-whitespace characters, in
    order.  [word] holds the current run, last character first. *)
Fixpoint split_from (word s : string) : list string :=
  match s with
  | EmptyString => flush word []
  | String c s' =>
      if isspace c
      then flush word (split_from EmptyString s')
      else split_from (String c word) s'
  end.

Definition split (s : string) : list string := split_from EmptyString s.

(** [sep.join(words)] *)
Fixpoint join (sep : string) (words : list string) : string :=
  match words with
  | [] => EmptyString
  | [w] => w
  | w :: ws => w +:+ sep +:+ join sep ws
  end.

Fixpoint lstrip (s : string) : string :=
  match s with
  | EmptyString => EmptyString
  | String c s' => if isspace c then lstrip s' else s
  end.

Definition rstrip (s : string) : string := rev (lstrip (rev s)).

(** [s.strip()] *)
Definition strip (s : string) : string := rstrip (lstrip s).

Fixpoint all_chars (p : ascii -> bool) (s : string) : bool :=
  match s with
  | EmptyString => true
  | String c s' => p c && all_chars p s'
  end.

(** [any(k in s for k in keywords)] *)
Definition any_in (keywords : list string) (s : string) : bool :=
  existsb (fun k => contains k s) keywords.

(** Decimal numeral of [n], left-padded with zeros to [width]
    digits: the [%02d], [%04d] and [%06d] of [isoformat]. *)
Fixpoint repeat_char (c : ascii) (n : nat) : string :=
  match n with
  | O => EmptyString
  | S n' => String c (repeat_char c n')
  end.

Definition decimal (n : N) : string :=
  NilZero.string_of_uint (N.to_uint n).

Definition zfill (width : nat) (n : N) : string :=
  let d := decimal n in repeat_char "0" (width - String.length d) +:+ d.

(** [k] occurs in [s] as a contiguous substring: what [k in s]
    decides. *)
Definition occurs (k s : string) : Prop :=
  exists pre suf, s = pre +:+ k +:+ suf.

Definition occurs_any (keywords : list string) (s : string) : Prop :=
  exists k, In k keywords /\ occurs k s.




(** A word: non-empty and free of whitespace. *)
Definition is_word (w : string) : Prop :=
  w <> "" /\ all_chars (fun c => negb (isspace c)) w = true.

End PyStr.

(** ** Python values, exceptions and results *)

Module Py.

(** The objects [json] produces and [jsonify] accepts.  A [dict]
    lists its items in insertion order; its keys are strings. *)
Inductive value : Type :=
| VNone
| VBool (b : bool)
| VInt (n : Z)
| VStr (s : string)
| VList (items : list value)
| VDict (items : list (string * value)).

(** An instance of a subclass of [Exception]: its class name and
    [str(e)]. *)
Record exception : Type := Exc { exc_class : string; exc_str : string }.

Inductive result (A : Type) : Type :=
| Return (a : A)
| Raise (e : exception).
Arguments Return {A} a.
Arguments Raise {A} e.

Definition type_name (v : value) : string :=
  match v with
  | VNone => "NoneType"
  | VBool _ => "bool"
  | VInt _ => "int"
  | VStr _ => "str"
  | VList _ => "list"
  | VDict _ => "dict"
  end.

Definition AttributeError (v : value) (attr : string) : exception :=
  Exc "AttributeError"
      ("'" +:+ type_name v +:+ "' object has no attribute '" +:+ attr +:+ "'").

Definition UnboundLocalError (name : string) : exception :=
  Exc "UnboundLocalError"
      ("cannot access local variable '" +:+ name
       +:+ "' where it is not associated with a value").

(** The value a key is bound to in a dict's items; a dict binds a key
    at most once. *)
Fixpoint lookup (key : string) (items : list (string * value)) : option value :=
  match items with
  | [] => None
  | (k, v) :: rest => if String.eqb k key then Some v else lookup key rest
  end.

(** The value of a dict at a key, if the object is a dict binding
    it. *)
Definition item (obj : value) (key : string) : option value :=
  match obj with
  | VDict items => lookup key items
  | _ => None
  end.

(** [list(obj.keys())] *)
Definition keys (obj : value) : list string :=
  match obj with
  | VDict items => map fst items
  | _ => []
  end.

(** [obj.get(key, default)] *)
Definition get (obj : value) (key : string) (default : value) : result value :=
  match obj with
  | VDict items =>
      match lookup key items with
      | Some v => Return v
      | None => Return default
      end
  | _ => Raise (AttributeError obj "get")
  end.

(** [obj.strip()] *)
Definition strip (obj : value) : result string :=
  match obj with
  | VStr s => Return (PyStr.strip s)
  | _ => Raise (AttributeError obj "strip")
  end.

(** [not s] for a [str] *)
Definition is_empty (s : string) : bool :=
  match s with
  | EmptyString => true
  | String _ _ => false
  end.

Definition backslash : ascii := ascii_of_nat 92.
Definition quote : ascii := ascii_of_nat 39.
Definition dquote : ascii := ascii_of_nat 34.

Definition hex_digit (n : nat) : ascii :=
  match String.get n "0123456789abcdef" with
  | Some c => c
  | None => "0"%char
  end.

Definition has_char (c : ascii) (s : string) : bool :=
  negb (PyStr.all_chars (fun x => negb (Ascii.eqb x c)) s).

(** One character of [repr(s)], inside the quotes [q]. *)
Definition repr_char (q c : ascii) : string :=
  let n := PyStr.code c in
  if Ascii.eqb c q || Ascii.eqb c backslash then String backslash (String c "")
  else if n =? 9 then String backslash "t"
  else if n =? 10 then String backslash "n"
  else if n =? 13 then String backslash "r"
  else if (n <? 32) || (n =? 127)
    then String backslash
           (String "x" (String (hex_digit (n / 16)) (String (hex_digit (n mod 16)) "")))
  else String c "".

Fixpoint repr_chars (q : ascii) (s : string) : string :=
  match s with
  | EmptyString => EmptyString
  | String c s' => repr_char q c +:+ repr_chars q s'
  end.

(** [repr(s)] of a [str]: single quotes, unless [s] holds a single
    quote and no double quote. *)
Definition repr_str (s : string) : string :=
  let q := if has_char quote s && negb (has_char dquote s) then dquote else quote in
  String q (repr_chars q s) +:+ String q "".

Definition KeyError (key : string) : exception :=
  Exc "KeyError" (repr_str key).

(** [obj[key]] on a dict *)
Definition subscript (obj : value) (key : string) : result value :=
  match obj with
  | VDict items =>
      match lookup key items with
      | Some v => Return v
      | None => Raise (KeyError key)
      end
  | _ => Raise (Exc "TypeError" ("'" +:+ type_name obj +:+ "' object is not subscriptable"))
  end.

(** [repr(obj)] *)
Fixpoint repr (obj : value) : string :=
  match obj with
  | VNone => "None"
  | VBool true => "True"
  | VBool false => "False"
  | VInt n => NilZero.string_of_int (Z.to_int n)
  | VStr s => repr_str s
  | VList items => "[" +:+ PyStr.join ", " (map repr items) +:+ "]"
  | VDict items =>
      "{" +:+ PyStr.join ", "
                (map (fun kv => repr_str (fst kv) +:+ ": " +:+ repr (snd kv)) items)
      +:+ "}"
  end.

(** [str(obj)], which an f-string field [{obj}] inserts. *)
Definition str (obj : value) : string :=
  match obj with
  | VStr s => s
  | _ => repr obj
  end.

(** A naive [datetime]. *)
Record datetime : Type := Datetime {
  year : N; month : N; day : N;
  hour : N; minute : N; second : N;
  microsecond : N
}.

(** [d.isoformat()]: [YYYY-MM-DDTHH:MM:SS], followed by [.ffffff]
    when the microseconds are not zero. *)
Definition isoformat (d : datetime) : string :=
  PyStr.zfill 4 (year d) +:+ "-" +:+ PyStr.zfill 2 (month d) +:+ "-"
  +:+ PyStr.zfill 2 (day d) +:+ "T" +:+ PyStr.zfill 2 (hour d) +:+ ":"
  +:+ PyStr.zfill 2 (minute d) +:+ ":" +:+ PyStr.zfill 2 (second d)
  +:+ (if (microsecond d =? 0)%N then ""
       else "." +:+ PyStr.zfill 6 (microsecond d)).

End Py.

(** ** schema-extraction-server.py *)

Module Server.
Import Py.

(** The five literal [requirements] lists of
    [generate_fallback_schema], in the order of its branches. *)

Definition document (type : string) (requirements : list (string * value)) : value :=
  VDict [("type", VStr type); ("requirements", VDict requirements)].

Definition size_kb (lo hi : Z) : value :=
  VDict [("min", VInt lo); ("max", VInt hi)].

Definition strs (l : list string) : value := VList (map VStr l).

Definition banking_requirements : list value :=
  [ document "photograph"
      [ ("format", strs ["JPG"; "JPEG"]);
        ("size_kb", size_kb 20 50);
        ("dimensions", VStr "200x230 pixels");
        ("color", VStr "color");
        ("background", VStr "light");
        ("notes", strs ["Recent colored photograph"; "Passport size";
                        "Clear face visibility"]) ];
    document "signature"
      [ ("format", strs ["JPG"; "JPEG"]);
        ("size_kb", size_kb 10 20);
        ("dimensions", VStr "140x60 pixels");
        ("background", VStr "white");
        ("notes", strs ["Clear signature in black ink"; "Sign on white paper"]) ];
    document "thumb_impression"
      [ ("format", strs ["JPG"; "JPEG"]);
        ("size_kb", size_kb 10 20);
        ("dimensions", VStr "240x240 pixels");
        ("background", VStr "white");
        ("notes", strs ["Left thumb impression";
                        "Clear impression on white paper"]) ] ].

Definition ssc_requirements : list value :=
  [ document "photograph"
      [ ("format", strs ["JPEG"]);
        ("size_kb", size_kb 4 40);
        ("dimensions", VStr "3.5x4.5 cm");
        ("color", VStr "color");
        ("background", VStr "light");
        ("notes", strs ["Recent colored photograph"; "Passport size"]) ];
    document "signature"
      [ ("format", strs ["JPEG"]);
        ("size_kb", size_kb 1 12);
        ("dimensions", VStr "4x2 cm");
        ("background", VStr "white");
        ("notes", strs ["Clear signature in black ink"]) ] ].

Definition medical_engineering_requirements : list value :=
  [ document "photograph"
      [ ("format", strs ["JPG"; "JPEG"]);
        ("size_kb", size_kb 10 200);
        ("dimensions", VStr "Passport size");
        ("color", VStr "color");
        ("background", VStr "white");
        ("notes", strs ["Recent photograph"; "Face should be clearly visible";
                        "No sunglasses or hat"]) ];
    document "signature"
      [ ("format", strs ["JPG"; "JPEG"]);
        ("size_kb", size_kb 4 30);
        ("background", VStr "white");
        ("notes", strs ["Clear signature in blue or black ink"]) ] ].

Definition upsc_requirements : list value :=
  [ document "photograph"
      [ ("format", strs ["JPG"; "JPEG"]);
        ("size_kb", size_kb 3 50);
        ("dimensions", VStr "5x7 cm");
        ("color", VStr "color");
        ("background", VStr "white");
        ("notes", strs ["Recent photograph"; "Professional attire preferred";
                        "Clear face visibility"]) ];
    document "signature"
      [ ("format", strs ["JPG"; "JPEG"]);
        ("size_kb", size_kb 1 10);
        ("dimensions", VStr "4x2 cm");
        ("background", VStr "white");
        ("notes", strs ["Signature in black ink"; "Sign on white paper"]) ] ].

Definition generic_requirements : list value :=
  [ document "photograph"
      [ ("format", strs ["JPG"; "JPEG"; "PNG"]);
        ("size_kb", size_kb 10 100);
        ("dimensions", VStr "Passport size");
        ("color", VStr "color");
        ("notes", strs ["Recent photograph"; "Clear face visibility"]) ];
    document "signature"
      [ ("format", strs ["JPG"; "JPEG"; "PNG"]);
        ("size_kb", size_kb 5 50);
        ("background", VStr "white");
        ("notes", strs ["Clear signature"]) ] ].

(** Line 18, the value of [normalized_name]. *)
Definition normalized_name (exam_name : string) : string :=
  PyStr.join " "
    (map PyStr.capitalize
       (PyStr.split (PyStr.replace "_" " " (PyStr.replace "-" " " exam_name)))).

(** Lines 23 to 157, the value of [requirements]. *)
Definition requirements_for (lower_name : string) : list value :=
  if PyStr.any_in ["ibps"; "bank"; "sbi"; "rbi"] lower_name
  then banking_requirements
  else if PyStr.contains "ssc" lower_name
  then ssc_requirements
  else if PyStr.any_in ["neet"; "jee"; "gate"] lower_name
  then medical_engineering_requirements
  else if PyStr.any_in ["upsc"; "civil"; "ias"; "ips"] lower_name
  then upsc_requirements
  else generic_requirements.

(** [generate_fallback_schema(exam_name)], where [now] is what
    [datetime.now()] returns at line 163. *)
Definition generate_fallback_schema (now : datetime) (exam_name : string) : value :=
  let normalized_name := normalized_name exam_name in
  let lower_name := PyStr.lower exam_name in
  let requirements := requirements_for lower_name in
  VDict [ ("exam", VStr normalized_name);
          ("documents", VList requirements);
          ("extractedFrom", VStr "Intelligent Fallback System");
          ("extractedAt", VStr (isoformat now)) ].

(** *** The request handlers *)

(** What a handler run depends on: the outcome of
    [request.get_json()], the successive readings of the clock, and
    the console, which accepts a printed line ([None]) or makes
    [print] raise. *)
Record context : Type := Context {
  get_json : result value;
  clock : nat -> datetime;
  console : string -> option exception
}.

(** What a handler run changes: the lines printed so far and the
    number of clock readings taken. *)
Record world : Type := World {
  stdout : list string;
  readings : nat
}.

Record response : Type := Response {
  status : nat;
  body : value
}.

Definition M (A : Type) : Type := world -> result A * world.

Definition ret {A} (a : A) : M A := fun w => (Return a, w).

Definition bind {A B} (m : M A) (k : A -> M B) : M B :=
  fun w =>
    match m w with
    | (Return a, w') => k a w'
    | (Raise e, w') => (Raise e, w')
    end.

Definition lift {A} (r : result A) : M A := fun w => (r, w).

(** [try: body / except Exception as e: handler e] *)
Definition try_except {A} (body : M A) (handler : exception -> M A) : M A :=
  fun w =>
    match body w with
    | (Return a, w') => (Return a, w')
    | (Raise e, w') => handler e w'
    end.

Notation "x <- m ;; k" := (bind m (fun x => k))
  (at level 100, m at next level, right associativity).
Notation "m ;; k" := (bind m (fun _ => k))
  (at level 100, right associativity).

Definition print (c : context) (line : string) : M unit :=
  fun w =>
    match console c line with
    | None => (Return tt, World (stdout w ++ [line]) (readings w))
    | Some e => (Raise e, w)
    end.

(** [datetime.now()] *)
Definition datetime_now (c : context) : M datetime :=
  fun w => (Return (clock c (readings w)), World (stdout w) (S (readings w))).

(** [jsonify(obj)]: a response of status 200 carrying [obj]. *)
Definition jsonify (obj : value) : response := Response 200 obj.

(** [return resp, code] *)
Definition with_status (r : response) (code : nat) : response :=
  Response code (body r).

Definition note : string :=
  "Using intelligent pattern matching - real web extraction available via Node.js version".

(** Lines 176 to 196: the [try] block once [data] is bound. *)
Definition try_block (c : context) (data : value) : M response :=
  field <- lift (get data "examName" (VStr "")) ;;
  exam_name <- lift (strip field) ;;
  if is_empty exam_name
  then ret (with_status
              (jsonify (VDict [ ("success", VBool false);
                                ("error", VStr "Exam name is required") ]))
              400)
  else
    print c ("Generating schema for: " +:+ exam_name) ;;
    now <- datetime_now c ;;
    let schema := generate_fallback_schema now exam_name in
    exam <- lift (subscript schema "exam") ;;
    print c ("Generated schema for " +:+ str exam) ;;
    exam <- lift (subscript schema "exam") ;;
    ret (jsonify (VDict [ ("success", VBool true);
                          ("schema", schema);
                          ("message", VStr ("Generated schema for " +:+ str exam));
                          ("note", VStr note) ])).

(** The local variable [data], read in the [except] branch: bound
    when line 175 returned, unbound when it raised. *)
Definition load_data (data : option value) : result value :=
  match data with
  | Some v => Return v
  | None => Raise (UnboundLocalError "data")
  end.

Definition basic_fallback_documents : list value :=
  [ document "photograph"
      [ ("format", strs ["JPG"; "JPEG"]);
        ("size_kb", size_kb 10 100);
        ("dimensions", VStr "Passport size");
        ("color", VStr "color");
        ("notes", strs ["Recent photograph"]) ] ].

(** Lines 198 to 225: the [except Exception as e] branch. *)
Definition except_block (c : context) (data : option value) (e : exception)
  : M response :=
  print c ("Error generating schema: " +:+ exc_str e) ;;
  d <- lift (load_data data) ;;
  exam <- lift (get d "examName" (VStr "Unknown Exam")) ;;
  now <- datetime_now c ;;
  let fallback :=
    VDict [ ("exam", exam);
            ("documents", VList basic_fallback_documents);
            ("extractedFrom", VStr "Basic Fallback");
            ("extractedAt", VStr (isoformat now)) ] in
  ret (jsonify (VDict [ ("success", VBool true);
                        ("schema", fallback);
                        ("message", VStr "Generated basic fallback schema");
                        ("warning", VStr "Error occurred during generation") ])).

(** [generate_schema()], the handler of [POST /api/generate-schema]. *)
Definition generate_schema (c : context) : M response :=
  fun w =>
    match get_json c with
    | Raise e => except_block c None e w
    | Return data =>
        try_except (try_block c data) (except_block c (Some data)) w
    end.

(** [health_check()], the handler of [GET /health]. *)
Definition health_check (c : context) : M response :=
  now <- datetime_now c ;;
  ret (jsonify (VDict [ ("status", VStr "OK");
                        ("timestamp", VStr (isoformat now));
                        ("message", VStr "Schema Extraction Server is running") ])).



(** The selection as the specification words it: the checks are
    tried in order on the lowercased name and the first that
    matches decides. *)
Inductive selects (name : string) : list value -> Prop :=
| selects_banking :
    PyStr.occurs_any ["ibps"; "bank"; "sbi"; "rbi"] name ->
    selects name banking_requirements
| selects_ssc :
    ~ PyStr.occurs_any ["ibps"; "bank"; "sbi"; "rbi"] name ->
    PyStr.occurs "ssc" name ->
    selects name ssc_requirements
| selects_medical_engineering :
    ~ PyStr.occurs_any ["ibps"; "bank"; "sbi"; "rbi"] name ->
    ~ PyStr.occurs "ssc" name ->
    PyStr.occurs_any ["neet"; "jee"; "gate"] name ->
    selects name medical_engineering_requirements
| selects_upsc :
    ~ PyStr.occurs_any ["ibps"; "bank"; "sbi"; "rbi"] name ->
    ~ PyStr.occurs "ssc" name ->
    ~ PyStr.occurs_any ["neet"; "jee"; "gate"] name ->
    PyStr.occurs_any ["upsc"; "civil"; "ias"; "ips"] name ->
    selects name upsc_requirements
| selects_generic :
    ~ PyStr.occurs_any ["ibps"; "bank"; "sbi"; "rbi"] name ->
    ~ PyStr.occurs "ssc" name ->
    ~ PyStr.occurs_any ["neet"; "jee"; "gate"] name ->
    ~ PyStr.occurs_any ["upsc"; "civil"; "ias"; "ips"] name ->
    selects name generic_requirements.


(** The normalization as the specification words it: hyphens and
    underscores become spaces, the result is split on whitespace,
    each word is capitalized, and the words are joined by single
    spaces. *)
Definition hyphen_underscore_to_space (c : ascii) : ascii :=
  if Ascii.eqb c "-" || Ascii.eqb c "_" then " "%char else c.

Definition normalization (exam_name : string) : string :=
  PyStr.join " "
    (map PyStr.capitalize
       (PyStr.split (PyStr.map_chars hyphen_underscore_to_space exam_name))).

(** An entry of [documents]: a dict of exactly [type], a string, and
    [requirements], a dict. *)
Definition is_document (d : value) : Prop :=
  exists type requirements,
    d = VDict [("type", VStr type); ("requirements", VDict requirements)].

(** The three responses of [generate_schema], by their literals:
    line 179, line 191 and line 220. *)
Definition missing_input_response : response :=
  Response 400 (VDict [ ("success", VBool false);
                        ("error", VStr "Exam name is required") ]).

Definition success_response (now : datetime) (exam_name : string) : response :=
  Response 200
    (VDict [ ("success", VBool true);
             ("schema", generate_fallback_schema now exam_name);
             ("message", VStr ("Generated schema for " +:+ normalized_name exam_name));
             ("note", VStr note) ]).

Definition fallback_response (exam : value) (now : datetime) : response :=
  Response 200
    (VDict [ ("success", VBool true);
             ("schema",
              VDict [ ("exam", exam);
                      ("documents", VList basic_fallback_documents);
                      ("extractedFrom", VStr "Basic Fallback");
                      ("extractedAt", VStr (isoformat now)) ]);
             ("message", VStr "Generated basic fallback schema");
             ("warning", VStr "Error occurred during generation") ]).

(** The line the [except] branch prints for an exception. *)
Definition error_line (e : exception) : string :=
  "Error generating schema: " +:+ exc_str e.

(** A body the missing-input check rejects: no [examName], or one
    made of whitespace only. *)
Definition rejected (items : list (string * value)) : Prop :=
  lookup "examName" items = None
  \/ exists s, lookup "examName" items = Some (VStr s)
              /\ PyStr.all_chars PyStr.isspace s = true.

Definition is_dict (obj : value) : bool :=
  match obj with
  | VDict _ => true
  | _ => false
  end.

Definition is_str (obj : value) : bool :=
  match obj with
  | VStr _ => true
  | _ => false
  end.

(** What a run of the handler comes to. *)
Inductive outcome (c : context) (w : world) : result response * world -> Prop :=
| outcome_rejected items :
    get_json c = Return (VDict items) ->
    rejected items ->
    outcome c w (Return missing_input_response, w)
| outcome_generated items s :
    get_json c = Return (VDict items) ->
    lookup "examName" items = Some (VStr s) ->
    PyStr.all_chars PyStr.isspace s = false ->
    console c ("Generating schema for: " +:+ PyStr.strip s) = None ->
    console c ("Generated schema for " +:+ normalized_name (PyStr.strip s)) = None ->
    outcome c w
      (Return (success_response (clock c (readings w)) (PyStr.strip s)),
       World ((stdout w ++ ["Generating schema for: " +:+ PyStr.strip s])
                ++ ["Generated schema for " +:+ normalized_name (PyStr.strip s)])
             (S (readings w)))
| outcome_fallback items v e w1 :
    get_json c = Return (VDict items) ->
    lookup "examName" items = Some v ->
    try_block c (VDict items) w = (Raise e, w1) ->
    console c (error_line e) = None ->
    outcome c w
      (Return (fallback_response v (clock c (readings w1))),
       World (stdout w1 ++ [error_line e]) (S (readings w1)))
| outcome_raised e e' w' :
    (forall items, get_json c <> Return (VDict items))
    \/ (exists x, console c (error_line e) = Some x) ->
    outcome c w (Raise e', w').

(** The words of a normalized name. *)
Definition words (exam_name : string) : list string :=
  map PyStr.capitalize
    (PyStr.split (PyStr.map_chars hyphen_underscore_to_space exam_name)).

(** The bounds [requirements.size_kb] of a document. *)
Definition size_bounds (d : value) : option (Z * Z) :=
  match item d "requirements" with
  | Some r =>
      match item r "size_kb" with
      | Some kb =>
          match item kb "min", item kb "max" with
          | Some (VInt lo), Some (VInt hi) => Some (lo, hi)
          | _, _ => None
          end
      | None => None
      end
  | None => None
  end.

(** *** Sample runs *)

(** A console that accepts every line, and one that cannot encode
    the line printed at line 184 for the name [ssc]. *)
Definition accepting : string -> option exception := fun _ => None.



(** A clock that advances by one second from reading to reading. *)
Definition ticking : nat -> datetime :=
  fun n => Datetime 2024 1 15 10 30 (N.of_nat n) 0.

Definition post (body : value) (console : string -> option exception) : context :=
  Context (Return body) ticking console.

Definition fresh : world := World [] 0.

(** What [get_json] raises on a body that is not JSON. *)
Definition bad_request : exception :=
  Exc "BadRequest" "400 Bad Request: Failed to decode JSON object".


End Server.

(** ** scripts/export-onnx.py *)

Module ExportOnnx.
Import Py.

(** The disk: regular files by path, with their contents, and the
    directories. *)
Record disk : Type := Disk {
  files : gmap string string;
  dirs : gset string
}.

(** The calls that reach the disk.  A call of [main_export] is
    recorded with what it raised, if anything. *)
Inductive op : Type :=
| OpMkdir (path : string)
| OpMainExport (model_name output task : string) (raised : option exception)
| OpTouch (path : string).

(** What a run depends on: whether the imports of lines 13 and 14
    succeed, what the import of line 32 raises, what
    [optimum.exporters.onnx.main_export] does to the disk and
    whether it returns, and the working directory. *)
Record context : Type := Context {
  imports_found : bool;
  import_main_export : option exception;
  main_export : string -> string -> string -> disk -> result unit * disk;
  cwd : string
}.

Record world : Type := World {
  fs : disk;
  stdout : list string;
  ops : list op
}.

(** The console is taken to accept every line of the script. *)
Definition print (line : string) (w : world) : world :=
  World (fs w) (stdout w ++ [line]) (ops w).

Definition nl : string := String (ascii_of_nat 10) "".

(** [Path(dir) / name] *)
Definition path_join (dir name : string) : string := dir +:+ "/" +:+ name.

Definition MODELS_DIR : string := "public/models".

(** [MODELS_DIR.mkdir(parents=True, exist_ok=True)] *)
Definition mkdir_models_dir (w : world) : world :=
  World (Disk (files (fs w)) ({["public"; MODELS_DIR]} ∪ dirs (fs w)))
        (stdout w)
        (ops w ++ [OpMkdir MODELS_DIR]).

(** [path.touch()]: an absent file is created empty, a present one
    keeps its contents. *)
Definition touch_file (path : string) (d : disk) : disk :=
  match files d !! path with
  | Some _ => d
  | None => Disk (<[path := ""]> (files d)) (dirs d)
  end.

Definition touch (path : string) (w : world) : world :=
  World (touch_file path (fs w)) (stdout w) (ops w ++ [OpTouch path]).

(** Lines 41 to 44: the [except Exception as e] branch of
    [export_distilbert]. *)
Definition export_failed (output_path : string) (e : exception) (w : world) : world :=
  let w := print ("❌ Failed to export DistilBERT: " +:+ exc_str e) w in
  let w := print "Creating placeholder file..." w in
  touch output_path w.

(** [export_distilbert()] *)
Definition export_distilbert (c : context) (w : world) : world :=
  let w := print (nl +:+ "📦 Exporting DistilBERT to ONNX...") w in
  let model_name := "distilbert-base-uncased" in
  let output_path := path_join MODELS_DIR "distilbert.onnx" in
  match import_main_export c with
  | Some e => export_failed output_path e w
  | None =>
      let output := path_join MODELS_DIR "distilbert" in
      let task := "feature-extraction" in
      match main_export c model_name output task (fs w) with
      | (Return _, d) =>
          let w := World d (stdout w)
                     (ops w ++ [OpMainExport model_name output task None]) in
          print ("✅ DistilBERT exported to " +:+ output_path) w
      | (Raise e, d) =>
          let w := World d (stdout w)
                     (ops w ++ [OpMainExport model_name output task (Some e)]) in
          export_failed output_path e w
      end
  end.

(** [create_layoutlm_placeholder()] *)
Definition create_layoutlm_placeholder (w : world) : world :=
  let w := print (nl +:+ "📝 Creating LayoutLM placeholder...") w in
  let output_path := path_join MODELS_DIR "layoutlm.onnx" in
  let w := touch output_path w in
  let w := print ("✅ Placeholder created at " +:+ output_path) w in
  let w := print "⚠️  For actual LayoutLM model:" w in
  let w := print "   Visit: https://huggingface.co/microsoft/layoutlmv3-base" w in
  print "   Or use: git lfs install && git clone https://huggingface.co/microsoft/layoutlmv3-base" w.

Definition rule : string := PyStr.repeat_char "=" 50.

(** Lines 58 to 67: the body of [if __name__ == "__main__"]. *)
Definition main (c : context) (w : world) : world :=
  let w := print "🚀 ONNX Model Export Script" w in
  let w := print rule w in
  let w := export_distilbert c w in
  let w := create_layoutlm_placeholder w in
  let w := print (nl +:+ rule) w in
  let w := print "✅ Model export complete!" w in
  print ("📁 Models location: " +:+ path_join (cwd c) MODELS_DIR) w.

(** The script run from the command line: its exit status and the
    world it leaves. *)
Definition script (c : context) (w : world) : nat * world :=
  if imports_found c
  then
    let w := print "✅ Required libraries found" w in
    let w := mkdir_models_dir w in
    (0, main c w)
  else
    let w := print "❌ Missing libraries. Install with:" w in
    let w := print "pip install transformers optimum[exporters] onnx onnxruntime" w in
    (1, w).

(** The two model artifacts, with the placeholder of each. *)
Inductive artifact : Type := DistilBERT | LayoutLM.

Definition placeholder (a : artifact) : string :=
  match a with
  | DistilBERT => path_join MODELS_DIR "distilbert.onnx"
  | LayoutLM => path_join MODELS_DIR "layoutlm.onnx"
  end.






(** The calls performed between two worlds of one run. *)
Definition performed (before after : world) : list op :=
  drop (length (ops before)) (ops after).

(** Lines 32 to 38: what the [try] block of [export_distilbert]
    comes to, and the disk it leaves.  Nothing is called when the
    import raises. *)
Definition export_attempt (c : context) (d : disk) : result unit * disk :=
  match import_main_export c with
  | Some e => (Raise e, d)
  | None =>
      main_export c "distilbert-base-uncased"
        (path_join MODELS_DIR "distilbert") "feature-extraction" d
  end.

(** The calls [export_distilbert] performs, by the outcome of its
    attempt. *)
Definition export_distilbert_ops (c : context) (d : disk) : list op :=
  match import_main_export c with
  | Some _ => [OpTouch (placeholder DistilBERT)]
  | None =>
      match fst (export_attempt c d) with
      | Return _ =>
          [OpMainExport "distilbert-base-uncased" (path_join MODELS_DIR "distilbert")
             "feature-extraction" None]
      | Raise e =>
          [OpMainExport "distilbert-base-uncased" (path_join MODELS_DIR "distilbert")
             "feature-extraction" (Some e);
           OpTouch (placeholder DistilBERT)]
      end
  end.

(** *** Sample runs *)

(** A library whose export returns after writing the model under
    the output directory, and one whose export raises. *)
Definition exporting : context :=
  Context true None
    (fun _ output _ d =>
       (Return tt,
        Disk (<[path_join output "model.onnx" := "ONNX"]> (files d))
             ({[output]} ∪ dirs d)))
    "/home/user/dockit".

Definition failing : context :=
  Context true None
    (fun _ _ _ d => (Raise (Exc "OSError" "model not found"), d))
    "/home/user/dockit".

Definition not_installed : context :=
  Context false None (fun _ _ _ d => (Return tt, d)) "/home/user/dockit".

Definition blank : world := World (Disk ∅ ∅) [] [].

(** A disk that already holds a LayoutLM model. *)
Definition trained : disk :=
  Disk {[ placeholder LayoutLM := "LAYOUTLM" ]} {[ "public"; MODELS_DIR ]}.

End ExportOnnx.

(** * Properties *)

(** ** Strings *)

Module PyStrFacts.
Import PyStr.

Lemma startswith_spec k s :
  startswith k s = true <-> exists suf, s = k +:+ suf.
Proof.
  revert s; induction k as [|a k IH]; intros s; simpl.
  - split; [intros _; now exists s | reflexivity].
  - destruct s as [|b s]; simpl.
    + split; [discriminate | intros [suf H]; discriminate].
    + destruct (Ascii.eqb_spec a b) as [->|Hab].
      * rewrite IH. split; intros [suf H]; exists suf.
        -- now rewrite H.
        -- now injection H.
      * split; [discriminate | intros [suf H]; injection H; congruence].
Qed.

Lemma contains_spec k s : contains k s = true <-> occurs k s.
Proof.
  unfold occurs. induction s as [|c s IH]; simpl.
  - rewrite orb_false_r, startswith_spec. split.
    + intros [suf H]. now exists "", suf.
    + intros ([|a pre] & suf & H); simpl in H; [now exists suf | discriminate].
  - rewrite orb_true_iff, IH, startswith_spec. split.
    + intros [[suf H] | (pre & suf & H)].
      * now exists "", suf.
      * exists (String c pre), suf. simpl. now rewrite H.
    + intros ([|a pre] & suf & H); simpl in H.
      * left. now exists suf.
      * right. exists pre, suf. now injection H.
Qed.

Lemma any_in_spec keywords s :
  any_in keywords s = true <-> occurs_any keywords s.
Proof.
  unfold any_in, occurs_any. rewrite existsb_exists.
  split; intros (k & Hin & H); exists k; split; auto; now apply contains_spec.
Qed.

Lemma any_in_false keywords s :
  any_in keywords s = false <-> ~ occurs_any keywords s.
Proof.
  rewrite <- any_in_spec. destruct (any_in keywords s); split; congruence.
Qed.


Lemma all_chars_rev_append p a b :
  all_chars p (rev_append a b) = all_chars p a && all_chars p b.
Proof.
  revert b; induction a as [|c a IH]; intros b; simpl; [reflexivity|].
  rewrite IH. simpl. now destruct (p c), (all_chars p a), (all_chars p b).
Qed.

Lemma all_chars_rev p s : all_chars p (rev s) = all_chars p s.
Proof. unfold rev. rewrite all_chars_rev_append. simpl. apply andb_true_r. Qed.

Lemma rev_append_empty a b : rev_append a b = "" -> a = "" /\ b = "".
Proof.
  revert b; induction a as [|c a IH]; intros b H; simpl in H; [auto|].
  apply IH in H as [_ H]. discriminate.
Qed.

Lemma rev_empty s : rev s = "" -> s = "".
Proof. intros H. now apply rev_append_empty in H. Qed.

Lemma lstrip_empty s : lstrip s = "" <-> all_chars isspace s = true.
Proof.
  induction s as [|c s IH]; simpl; [tauto|].
  destruct (isspace c); simpl; [exact IH | split; discriminate].
Qed.

Lemma all_chars_lstrip s :
  all_chars isspace (lstrip s) = all_chars isspace s.
Proof.
  induction s as [|c s IH]; simpl; [reflexivity|].
  destruct (isspace c) eqn:E; simpl; [exact IH | now rewrite E].
Qed.

Lemma rstrip_empty s : rstrip s = "" <-> all_chars isspace s = true.
Proof.
  unfold rstrip. rewrite <- (all_chars_rev isspace s), <- lstrip_empty.
  split; [apply rev_empty | now intros ->].
Qed.

(** [s.strip()] is empty exactly when [s] holds whitespace only. *)
Lemma strip_empty s : strip s = "" <-> all_chars isspace s = true.
Proof.
  unfold strip. now rewrite rstrip_empty, all_chars_lstrip.
Qed.

Lemma is_empty_strip s :
  Py.is_empty (strip s) = all_chars isspace s.
Proof.
  destruct (strip s) eqn:E.
  - symmetry. now apply strip_empty.
  - simpl. destruct (all_chars isspace s) eqn:A; [|reflexivity].
    apply strip_empty in A. congruence.
Qed.




(** Every word of [s.split()] is non-empty and free of whitespace. *)
Lemma flush_words word rest :
  all_chars (fun c => negb (isspace c)) word = true ->
  Forall is_word rest -> Forall is_word (flush word rest).
Proof.
  intros Hw Hr. destruct word as [|c word]; simpl; [exact Hr|].
  constructor; [split|exact Hr].
  - intros E. apply rev_empty in E. discriminate.
  - now rewrite all_chars_rev.
Qed.

Lemma split_from_words word s :
  all_chars (fun c => negb (isspace c)) word = true ->
  Forall is_word (split_from word s).
Proof.
  revert word; induction s as [|c s IH]; intros word Hw; simpl.
  - now apply flush_words.
  - destruct (isspace c) eqn:E.
    + apply flush_words; [exact Hw | now apply IH].
    + apply IH. simpl. now rewrite E, Hw.
Qed.

Lemma split_words s : Forall is_word (split s).
Proof. now apply split_from_words. Qed.

(** The string methods on sample inputs. *)
Example lower_example : lower "IBPS-po_2024 Z[" = "ibps-po_2024 z[".
Proof. reflexivity. Qed.

Example contains_example :
  contains "sbi" "xxsbi" = true /\ contains "sbi" "sb i" = false
  /\ contains "" "" = true.
Proof. repeat split. Qed.

Example replace_example :
  replace "-" " " "a--b-" = "a  b " /\ replace "aa" "b" "aaaxaa" = "baxb".
Proof. split; reflexivity. Qed.

Example split_example : split "  ab  c d " = ["ab"; "c"; "d"].
Proof. reflexivity. Qed.

Example strip_example : strip "  a b  " = "a b".
Proof. reflexivity. Qed.

Example capitalize_example : capitalize "iBPS" = "Ibps".
Proof. reflexivity. Qed.

Example isoformat_example :
  Py.isoformat (Py.Datetime 2024 3 9 7 5 0 0) = "2024-03-09T07:05:00"
  /\ Py.isoformat (Py.Datetime 2024 3 9 7 5 0 1234) = "2024-03-09T07:05:00.001234".
Proof. split; reflexivity. Qed.

Example repr_example :
  Py.str (Py.VList [Py.VInt (-5); Py.VStr "x"; Py.VNone; Py.VBool true])
  = "[-5, 'x', None, True]".
Proof. reflexivity. Qed.

End PyStrFacts.

(** ** The requirement template *)

Module ServerSpec.
Import Py Server PyStrFacts.



(** The checks exclude one another in their order, so the selected
    template is unique. *)
Lemma selects_functional name t1 t2 :
  selects name t1 -> selects name t2 -> t1 = t2.
Proof. intros H1 H2. destruct H1; destruct H2; tauto. Qed.



(** Each of the five templates is selected by some name; a name
    matching several checks gets the template of the first. *)
Example selection_examples :
  requirements_for (PyStr.lower "IBPS-PO") = banking_requirements
  /\ requirements_for (PyStr.lower "ssc_cgl") = ssc_requirements
  /\ requirements_for (PyStr.lower "JEE Main") = medical_engineering_requirements
  /\ requirements_for (PyStr.lower "Civil Services") = upsc_requirements
  /\ requirements_for (PyStr.lower "CAT 2024") = generic_requirements
  /\ requirements_for (PyStr.lower "SSC bank clerk") = banking_requirements
  /\ requirements_for (PyStr.lower "Tips for class 12") = upsc_requirements.
Proof. repeat split. Qed.

Lemma requirements_for_documents name :
  Forall is_document (requirements_for name).
Proof.
  unfold requirements_for.
  repeat match goal with |- context [if ?b then _ else _] => destruct b end;
    repeat constructor; unfold is_document, document; eauto.
Qed.

(** C6: the schema is a dict of exactly the four fields [exam], a
    string, [documents], a list whose entries are dicts of exactly
    [type] and [requirements], [extractedFrom], a string tag, and
    [extractedAt], the timestamp of the clock reading in ISO
    format, in this order. *)
Theorem generate_fallback_schema_fields now exam_name :
  exists exam documents tag,
    generate_fallback_schema now exam_name
    = VDict [ ("exam", VStr exam);
              ("documents", VList documents);
              ("extractedFrom", VStr tag);
              ("extractedAt", VStr (isoformat now)) ]
    /\ Forall is_document documents
    /\ keys (generate_fallback_schema now exam_name)
       = ["exam"; "documents"; "extractedFrom"; "extractedAt"].
Proof.
  exists (normalized_name exam_name), (requirements_for (PyStr.lower exam_name)),
    "Intelligent Fallback System".
  split; [reflexivity|]. split; [apply requirements_for_documents | reflexivity].
Qed.




(** The field differs from the raw name wherever the name is not
    already in normal form. *)
Example generate_fallback_schema_exam_examples :
  normalization "ibps-po_2024" = "Ibps Po 2024"
  /\ normalization "  SSC   cgl " = "Ssc Cgl"
  /\ normalization "Upsc Cse" = "Upsc Cse".
Proof. repeat split. Qed.


(** ** The handler of [POST /api/generate-schema] *)

Ltac differ :=
  let E := fresh "E" in intros E; vm_compute in E; discriminate E.

Ltac run :=
  unfold generate_schema, try_except, try_block, except_block, bind, lift,
    ret, print, datetime_now, jsonify, with_status, load_data; simpl.

Section JsonObjectBody.

(** The body of the request parses to a JSON object. *)
Variable c : context.
Variable items : list (string * value).
Hypothesis body_is_object : get_json c = Return (VDict items).

(** The missing-input branch: a response of status 400, nothing
    printed, the clock not read. *)
Lemma generate_schema_rejects w s :
  get (VDict items) "examName" (VStr "") = Return (VStr s) ->
  is_empty (PyStr.strip s) = true ->
  generate_schema c w
  = (Return (Response 400 (VDict [ ("success", VBool false);
                                   ("error", VStr "Exam name is required") ])),
     w).
Proof.
  intros Hget Hempty. run. rewrite body_is_object. simpl in Hget |- *.
  destruct (lookup "examName" items) as [v|]; injection Hget as ->; simpl;
    now rewrite Hempty.
Qed.

(** C2: a body without the [examName] field, or with an empty
    [examName], is answered by status 400 and the body
    [{success: false, error}]; no schema is generated: nothing is
    printed and the clock is not read. *)
Theorem generate_schema_missing_input w :
  lookup "examName" items = None \/ lookup "examName" items = Some (VStr "") ->
  generate_schema c w
  = (Return (Response 400 (VDict [ ("success", VBool false);
                                   ("error", VStr "Exam name is required") ])),
     w).
Proof.
  intros H. apply generate_schema_rejects with (s := ""); [|reflexivity].
  simpl. now destruct H as [-> | ->].
Qed.



(** Past the missing-input check, the [try] block raises only what
    one of its two [print] calls raises. *)
Lemma try_block_raises w s e w' :
  lookup "examName" items = Some (VStr s) ->
  try_block c (VDict items) w = (Raise e, w') ->
  PyStr.strip s <> ""
  /\ let line1 := "Generating schema for: " +:+ PyStr.strip s in
     let line2 := "Generated schema for " +:+ normalized_name (PyStr.strip s) in
     (console c line1 = Some e /\ w' = w)
     \/ (console c line1 = None /\ console c line2 = Some e
         /\ w' = World (stdout w ++ [line1]) (S (readings w))).
Proof.
  intros Hname. run. rewrite Hname. simpl.
  destruct (PyStr.strip s) as [|a t] eqn:Hs; simpl; [intros [=]|].
  destruct (console c ("Generating schema for: " +:+ _)) as [e1|] eqn:H1; simpl.
  - intros [= <- <-]. split; [congruence | now left].
  - destruct (console c ("Generated schema for " +:+ _)) as [e2|] eqn:H2; simpl;
      [|intros [=]].
    intros [= <- <-]. split; [congruence | right; auto].
Qed.



End JsonObjectBody.

Lemma generate_schema_missing_input_witness :
  (lookup "examName" [] = None \/ lookup "examName" [] = Some (VStr ""))
  /\ generate_schema (post (VDict []) accepting) fresh
     = (Return (Response 400 (VDict [ ("success", VBool false);
                                      ("error", VStr "Exam name is required") ])),
        fresh).
Proof.
  split; [left; reflexivity|].
  apply (generate_schema_missing_input (post (VDict []) accepting) [] eq_refl fresh).
  left; reflexivity.
Defined.

Example generate_schema_empty_name :
  generate_schema (post (VDict [("examName", VStr "")]) accepting) fresh
  = (Return (Response 400 (VDict [ ("success", VBool false);
                                   ("error", VStr "Exam name is required") ])),
     fresh).
Proof. reflexivity. Qed.





(** Before the check the branch is of less help: when
    [request.get_json()] raises, [data] is unbound and reading it in
    the [except] branch raises in turn; so does [data.get] when the
    body is not a JSON object. *)
Lemma generate_schema_get_json_raises c w e :
  get_json c = Raise e ->
  console c ("Error generating schema: " +:+ exc_str e) = None ->
  generate_schema c w
  = (Raise (UnboundLocalError "data"),
     World (stdout w ++ ["Error generating schema: " +:+ exc_str e]) (readings w)).
Proof. intros Hjson Hconsole. run. now rewrite Hjson, Hconsole. Qed.

Example generate_schema_body_null :
  generate_schema (post VNone accepting) fresh
  = (Raise (AttributeError VNone "get"),
     World ["Error generating schema: 'NoneType' object has no attribute 'get'"] 0).
Proof. reflexivity. Qed.

(** An [examName] that is not a string fails at [strip], before the
    check, with [data] bound: the fallback carries the raw value. *)
Example generate_schema_name_not_a_string :
  exists w',
    generate_schema (post (VDict [("examName", VInt 7)]) accepting) fresh
    = (Return
         (Response 200
            (VDict [ ("success", VBool true);
                     ("schema",
                      VDict [ ("exam", VInt 7);
                              ("documents", VList basic_fallback_documents);
                              ("extractedFrom", VStr "Basic Fallback");
                              ("extractedAt", VStr "2024-01-15T10:30:00") ]);
                     ("message", VStr "Generated basic fallback schema");
                     ("warning", VStr "Error occurred during generation") ])),
       w').
Proof. eexists. reflexivity. Qed.

(** ** The handler of [GET /health] *)

Lemma health_check_run c w :
  health_check c w
  = (Return
       (Response 200
          (VDict [ ("status", VStr "OK");
                   ("timestamp", VStr (isoformat (clock c (readings w))));
                   ("message", VStr "Schema Extraction Server is running") ])),
     World (stdout w) (S (readings w))).
Proof. reflexivity. Qed.

(** C5, as the code has it: every call of the health endpoint
    returns, with status 200, an object of exactly the three fields
    [status], [timestamp] and [message]; [status] and [message] are
    the same at every call, [timestamp] is the ISO format of the
    clock reading of the call; so two calls yield equal responses
    exactly when their timestamps are equal. *)
Theorem health_check_bodies c1 w1 c2 w2 :
  let t1 := isoformat (clock c1 (readings w1)) in
  let t2 := isoformat (clock c2 (readings w2)) in
  exists r1 r2,
    fst (health_check c1 w1) = Return r1
    /\ fst (health_check c2 w2) = Return r2
    /\ status r1 = 200 /\ status r2 = 200
    /\ keys (body r1) = ["status"; "timestamp"; "message"]
    /\ keys (body r2) = ["status"; "timestamp"; "message"]
    /\ item (body r1) "status" = Some (VStr "OK")
    /\ item (body r2) "status" = Some (VStr "OK")
    /\ item (body r1) "message" = Some (VStr "Schema Extraction Server is running")
    /\ item (body r2) "message" = Some (VStr "Schema Extraction Server is running")
    /\ item (body r1) "timestamp" = Some (VStr t1)
    /\ item (body r2) "timestamp" = Some (VStr t2)
    /\ (r1 = r2 <-> t1 = t2).
Proof.
  intros t1 t2. rewrite !health_check_run. simpl.
  eexists _, _. do 2 (split; [reflexivity|]).
  repeat (split; [reflexivity|]).
  fold t1 t2. split.
  - now intros [= ->].
  - now intros ->.
Qed.

(** Two calls in a row, the clock having advanced by a second, do
    not yield equal bodies. *)
Lemma health_check_counterexample :
  let c := post VNone accepting in
  let first := health_check c fresh in
  let second := health_check c (snd first) in
  fst first
  = Return (Response 200
              (VDict [ ("status", VStr "OK");
                       ("timestamp", VStr "2024-01-15T10:30:00");
                       ("message", VStr "Schema Extraction Server is running") ]))
  /\ fst second
     = Return (Response 200
                 (VDict [ ("status", VStr "OK");
                          ("timestamp", VStr "2024-01-15T10:30:01");
                          ("message", VStr "Schema Extraction Server is running") ]))
  /\ fst first <> fst second.
Proof.
  split; [reflexivity|]. split; [reflexivity|]. differ.
Qed.

End ServerSpec.

(** ** The export script *)

Module ExportOnnxSpec.
Import Py ExportOnnx.
Local Open Scope list_scope.

Lemma touch_file_lookup path d :
  files (touch_file path d) !! path = Some (default "" (files d !! path)).
Proof.
  unfold touch_file. destruct (files d !! path) as [x|] eqn:E; simpl.
  - exact E.
  - apply lookup_insert_eq.
Qed.

Lemma touch_file_other path q d :
  q <> path -> files (touch_file path d) !! q = files d !! q.
Proof.
  intros Hq. unfold touch_file. destruct (files d !! path); simpl; [reflexivity|].
  now apply lookup_insert_ne.
Qed.


Lemma export_distilbert_effect c w :
  ops (export_distilbert c w) = ops w ++ export_distilbert_ops c (fs w)
  /\ fs (export_distilbert c w)
     = match export_attempt c (fs w) with
       | (Return _, d) => d
       | (Raise _, d) => touch_file (placeholder DistilBERT) d
       end.
Proof.
  unfold export_distilbert, export_distilbert_ops, export_attempt, export_failed.
  destruct (import_main_export c) as [e|]; simpl; [now split|].
  destruct (main_export c _ _ _ (fs w)) as [[u|e] d]; simpl; split;
    try reflexivity.
  now rewrite <- app_assoc.
Qed.

Lemma create_layoutlm_placeholder_effect w :
  ops (create_layoutlm_placeholder w) = ops w ++ [OpTouch (placeholder LayoutLM)]
  /\ fs (create_layoutlm_placeholder w) = touch_file (placeholder LayoutLM) (fs w).
Proof. now split. Qed.



Lemma main_effect c w :
  ops (main c w)
  = ops w ++ export_distilbert_ops c (fs w) ++ [OpTouch (placeholder LayoutLM)]
  /\ fs (main c w) = fs (create_layoutlm_placeholder (export_distilbert c w)).
Proof.
  unfold main. simpl. split.
  - destruct (export_distilbert_effect c
                (print rule (print "🚀 ONNX Model Export Script" w))) as [-> _].
    simpl. now rewrite <- app_assoc.
  - f_equal.
    destruct (export_distilbert_effect c
                (print rule (print "🚀 ONNX Model Export Script" w))) as [_ ->].
    destruct (export_distilbert_effect c w) as [_ ->]. reflexivity.
Qed.



(** The three shapes of a run of the main block. *)
Example main_operations_examples :
  performed blank (main exporting blank)
  = [ OpMainExport "distilbert-base-uncased" "public/models/distilbert"
        "feature-extraction" None;
      OpTouch "public/models/layoutlm.onnx" ]
  /\ performed blank (main failing blank)
     = [ OpMainExport "distilbert-base-uncased" "public/models/distilbert"
           "feature-extraction" (Some (Exc "OSError" "model not found"));
         OpTouch "public/models/distilbert.onnx";
         OpTouch "public/models/layoutlm.onnx" ]
  /\ script not_installed blank
     = (1, World (Disk ∅ ∅)
             [ "❌ Missing libraries. Install with:";
               "pip install transformers optimum[exporters] onnx onnxruntime" ]
             []).
Proof. repeat split. Qed.

End ExportOnnxSpec.

(** * Further properties *)

(** ** Laws of the string methods *)

Module PyStrLaws.
Import PyStr PyStrFacts.







Lemma append_cons c a b : String c a +:+ b = String c (a +:+ b).
Proof. reflexivity. Qed.

Lemma map_chars_app f a b :
  map_chars f (a +:+ b) = map_chars f a +:+ map_chars f b.
Proof.
  induction a as [|c a IH]; [reflexivity|].
  rewrite append_cons. simpl. now rewrite IH.
Qed.

Lemma map_chars_length f s : String.length (map_chars f s) = String.length s.
Proof. induction s as [|c s IH]; simpl; [reflexivity | now rewrite IH]. Qed.

Lemma append_assoc a b c : (a +:+ b) +:+ c = a +:+ (b +:+ c).
Proof.
  induction a as [|x a IH]; [reflexivity|]. rewrite !append_cons. now rewrite IH.
Qed.


Lemma append_length a b :
  String.length (a +:+ b) = String.length a + String.length b.
Proof.
  induction a as [|x a IH]; [reflexivity|]. rewrite append_cons. simpl. now rewrite IH.
Qed.





(** An occurrence survives any text put before and after. *)
Lemma occurs_app k s pre suf : occurs k s -> occurs k (pre +:+ s +:+ suf).
Proof.
  intros (a & b & ->). exists (pre +:+ a), (b +:+ suf).
  now rewrite !append_assoc.
Qed.

Lemma occurs_length k s : occurs k s -> String.length k <= String.length s.
Proof. intros (a & b & ->). rewrite !append_length. lia. Qed.




(** *** Splitting and joining *)











(** *** Capitalizing *)






End PyStrLaws.

(** ** Behaviour of the handler on every request *)

Module ServerBehaviour.
Import Py Server PyStrFacts PyStrLaws ServerSpec.

Lemma except_block_unbound c e w :
  exists e' w', except_block c None e w = (Raise e', w')
    /\ (console c (error_line e) = None ->
        e' = UnboundLocalError "data"
        /\ w' = World (stdout w ++ [error_line e]) (readings w)).
Proof.
  unfold except_block, bind, print, lift, load_data, error_line.
  destruct (console c _) as [x|]; simpl.
  - exists x, w. split; [reflexivity | discriminate].
  - eexists _, _. split; [reflexivity | auto].
Qed.

Lemma except_block_not_a_dict c data e w :
  is_dict data = false ->
  exists e' w', except_block c (Some data) e w = (Raise e', w')
    /\ (console c (error_line e) = None ->
        e' = AttributeError data "get"
        /\ w' = World (stdout w ++ [error_line e]) (readings w)).
Proof.
  intros Hd. unfold except_block, bind, print, lift, load_data, error_line.
  destruct (console c _) as [x|]; simpl.
  - exists x, w. split; [reflexivity | discriminate].
  - destruct data; try discriminate Hd; simpl;
      (eexists _, _; split; [reflexivity | auto]).
Qed.

Lemma except_block_dict c items e w :
  except_block c (Some (VDict items)) e w
  = match console c (error_line e) with
    | Some x => (Raise x, w)
    | None =>
        (Return (fallback_response
                   (match lookup "examName" items with
                    | Some v => v
                    | None => VStr "Unknown Exam"
                    end)
                   (clock c (readings w))),
         World (stdout w ++ [error_line e]) (S (readings w)))
    end.
Proof.
  unfold except_block, bind, print, lift, load_data, error_line, get.
  destruct (console c _) as [x|]; simpl; [reflexivity|].
  now destruct (lookup "examName" items).
Qed.

Lemma try_block_not_a_dict c data w :
  is_dict data = false ->
  try_block c data w = (Raise (AttributeError data "get"), w).
Proof. intros Hd. destruct data; try discriminate Hd; reflexivity. Qed.

Lemma try_block_not_a_str c items v w :
  lookup "examName" items = Some v ->
  is_str v = false ->
  try_block c (VDict items) w = (Raise (AttributeError v "strip"), w).
Proof.
  intros Hv Hs. unfold try_block, bind, lift, get. rewrite Hv. simpl.
  destruct v; try discriminate Hs; reflexivity.
Qed.

(** The [try] block on a string: the check, then the two prints. *)
Lemma try_block_str c items s w :
  get (VDict items) "examName" (VStr "") = Return (VStr s) ->
  try_block c (VDict items) w
  = if PyStr.all_chars PyStr.isspace s
    then (Return missing_input_response, w)
    else
      let name := PyStr.strip s in
      match console c ("Generating schema for: " +:+ name) with
      | Some x => (Raise x, w)
      | None =>
          match console c ("Generated schema for " +:+ normalized_name name) with
          | Some x =>
              (Raise x,
               World (stdout w ++ ["Generating schema for: " +:+ name]) (S (readings w)))
          | None =>
              (Return (success_response (clock c (readings w)) name),
               World ((stdout w ++ ["Generating schema for: " +:+ name])
                        ++ ["Generated schema for " +:+ normalized_name name])
                     (S (readings w)))
          end
      end.
Proof.
  intros Hget. unfold try_block, bind, lift. rewrite Hget. unfold strip.
  rewrite is_empty_strip. destruct (PyStr.all_chars PyStr.isspace s); [reflexivity|].
  unfold print, datetime_now, ret. simpl.
  destruct (console c ("Generating schema for: " +:+ _)); [reflexivity|]. simpl.
  destruct (console c ("Generated schema for " +:+ _)); reflexivity.
Qed.

Lemma generate_schema_outcome c w : outcome c w (generate_schema c w).
Proof.
  unfold generate_schema. destruct (get_json c) as [data|e0] eqn:Hjson.
  2:{ destruct (except_block_unbound c e0 w) as (e' & w' & -> & _).
      apply (outcome_raised c w e0). left. intros items. congruence. }
  destruct (is_dict data) eqn:Hd.
  2:{ unfold try_except. rewrite (try_block_not_a_dict c data w Hd).
      destruct (except_block_not_a_dict c data (AttributeError data "get") w Hd)
        as (e' & w' & -> & _).
      apply (outcome_raised c w (AttributeError data "get")). left.
      intros items E. rewrite Hjson in E. injection E as ->. discriminate Hd. }
  destruct data as [| | | | |items]; try discriminate Hd. clear Hd.
  unfold try_except.
  destruct (lookup "examName" items) as [v|] eqn:Hname.
  2:{ rewrite (try_block_str c items "" w) by (simpl; now rewrite Hname). simpl.
      apply (outcome_rejected c w items Hjson). now left. }
  destruct (is_str v) eqn:Hv.
  2:{ rewrite (try_block_not_a_str c items v w Hname Hv), except_block_dict, Hname.
      destruct (console c (error_line _)) as [x|] eqn:Hc.
      - apply (outcome_raised c w (AttributeError v "strip")). right. now exists x.
      - apply (outcome_fallback c w items v _ w Hjson Hname); [|exact Hc].
        apply (try_block_not_a_str c items v w Hname Hv). }
  destruct v as [| | |s| |]; try discriminate Hv. clear Hv.
  assert (Htry := try_block_str c items s w). simpl in Htry. rewrite Hname in Htry.
  specialize (Htry eq_refl). rewrite Htry.
  destruct (PyStr.all_chars PyStr.isspace s) eqn:Hs.
  { apply (outcome_rejected c w items Hjson). right. now exists s. }
  cbv zeta in Htry |- *.
  destruct (console c ("Generating schema for: " +:+ _)) as [x|] eqn:H1.
  { rewrite except_block_dict, Hname.
    destruct (console c (error_line x)) as [y|] eqn:Hc.
    - apply (outcome_raised c w x). right. now exists y.
    - now apply (outcome_fallback c w items (VStr s) x w Hjson Hname). }
  destruct (console c ("Generated schema for " +:+ _)) as [x|] eqn:H2.
  { rewrite except_block_dict, Hname.
    destruct (console c (error_line x)) as [y|] eqn:Hc.
    - apply (outcome_raised c w x). right. now exists y.
    - now apply (outcome_fallback c w items (VStr s) x _ Hjson Hname). }
  now apply (outcome_generated c w items s).
Qed.


Lemma requirements_for_nonempty name : requirements_for name <> [].
Proof.
  unfold requirements_for.
  repeat match goal with |- context [if ?b then _ else _] => destruct b end;
    discriminate.
Qed.



(** Whatever the request, a response the handler returns is one of
    two shapes: status 400 with [success] false and no schema, or
    status 200 with [success] true and a schema of exactly the four
    template fields whose [documents] is a non-empty list of
    [{type, requirements}] entries. *)
Theorem generate_schema_response_shape c w r w' :
  generate_schema c w = (Return r, w') ->
  (status r = 400
   /\ item (body r) "success" = Some (VBool false)
   /\ item (body r) "schema" = None)
  \/ (status r = 200
      /\ item (body r) "success" = Some (VBool true)
      /\ exists schema documents,
          item (body r) "schema" = Some schema
          /\ keys schema = ["exam"; "documents"; "extractedFrom"; "extractedAt"]
          /\ item schema "documents" = Some (VList documents)
          /\ documents <> []
          /\ Forall is_document documents).
Proof.
  intros Hrun. pose proof (generate_schema_outcome c w) as Hout.
  rewrite Hrun in Hout.
  inversion Hout as [items Hjson Hrej | items s Hjson Hname Hs H1 H2
                     | items v e w1 Hjson Hname Htry Hc | ]; subst.
  - left. repeat split.
  - right. split; [reflexivity|]. split; [reflexivity|].
    eexists _, _. split; [reflexivity|]. split; [reflexivity|].
    split; [reflexivity|].
    split; [apply requirements_for_nonempty | apply requirements_for_documents].
  - right. split; [reflexivity|]. split; [reflexivity|].
    eexists _, _. split; [reflexivity|]. split; [reflexivity|].
    split; [reflexivity|]. split; [discriminate|].
    repeat constructor. unfold is_document, document. eauto.
Qed.

Lemma generate_schema_response_shape_witness :
  generate_schema (post (VDict [("examName", VInt 7)]) accepting) fresh
  = (Return (fallback_response (VInt 7) (ticking 0)),
     World [error_line (AttributeError (VInt 7) "strip")] 1)
  /\ ((status (fallback_response (VInt 7) (ticking 0)) = 400
       /\ item (body (fallback_response (VInt 7) (ticking 0))) "success"
          = Some (VBool false)
       /\ item (body (fallback_response (VInt 7) (ticking 0))) "schema" = None)
      \/ (status (fallback_response (VInt 7) (ticking 0)) = 200
          /\ item (body (fallback_response (VInt 7) (ticking 0))) "success"
             = Some (VBool true)
          /\ exists schema documents,
              item (body (fallback_response (VInt 7) (ticking 0))) "schema" = Some schema
              /\ keys schema = ["exam"; "documents"; "extractedFrom"; "extractedAt"]
              /\ item schema "documents" = Some (VList documents)
              /\ documents <> []
              /\ Forall is_document documents)).
Proof.
  split; [reflexivity|].
  apply (generate_schema_response_shape
           (post (VDict [("examName", VInt 7)]) accepting) fresh
           (fallback_response (VInt 7) (ticking 0))
           (World [error_line (AttributeError (VInt 7) "strip")] 1)).
  reflexivity.
Defined.

(** For a body that is a JSON object, and a console that accepts the
    line of the [except] branch, the handler never raises: it returns
    a response whatever [examName] holds and whatever the two prints
    of the [try] block come to. *)
Theorem generate_schema_returns c w items :
  get_json c = Return (VDict items) ->
  (forall e, console c (error_line e) = None) ->
  exists r w', generate_schema c w = (Return r, w').
Proof.
  intros Hjson Hconsole. pose proof (generate_schema_outcome c w) as Hout.
  destruct (generate_schema c w) as [[r|e'] w']; [now exists r, w'|].
  inversion Hout as [ | | | e e'' w'' [Hno | (x & Hx)]]; subst.
  - now destruct (Hno items).
  - rewrite Hconsole in Hx. discriminate.
Qed.

Lemma generate_schema_returns_witness :
  (forall e, console (post (VDict [("examName", VList [])]) accepting) (error_line e) = None)
  /\ exists r w',
      generate_schema (post (VDict [("examName", VList [])]) accepting) fresh
      = (Return r, w').
Proof.
  split; [reflexivity|].
  apply (generate_schema_returns (post (VDict [("examName", VList [])]) accepting)
           fresh [("examName", VList [])]); reflexivity.
Defined.

(** When [request.get_json()] raises, the handler raises as well: the
    [except] branch reads the unbound [data].  With a console that
    accepts its line, what propagates is the [UnboundLocalError], not
    the exception of [get_json]. *)
Theorem generate_schema_unparsed_body c w e :
  get_json c = Raise e ->
  exists e' w',
    generate_schema c w = (Raise e', w')
    /\ (console c (error_line e) = None ->
        e' = UnboundLocalError "data"
        /\ w' = World (stdout w ++ [error_line e]) (readings w)).
Proof.
  intros Hjson. unfold generate_schema. rewrite Hjson.
  apply except_block_unbound.
Qed.

Lemma generate_schema_unparsed_body_witness :
  exists e' w',
    generate_schema (Context (Raise bad_request) ticking accepting) fresh = (Raise e', w')
    /\ (console (Context (Raise bad_request) ticking accepting) (error_line bad_request)
        = None ->
        e' = UnboundLocalError "data"
        /\ w' = World (stdout fresh ++ [error_line bad_request]) (readings fresh)).
Proof.
  apply (generate_schema_unparsed_body
           (Context (Raise bad_request) ticking accepting) fresh bad_request).
  reflexivity.
Defined.

(** A body that parses to something other than a JSON object (null,
    a number, a string, a list) makes the handler raise: [data.get]
    fails in the [try] block and again in the [except] branch. *)
Theorem generate_schema_body_not_an_object c w data :
  get_json c = Return data ->
  is_dict data = false ->
  exists e' w',
    generate_schema c w = (Raise e', w')
    /\ (console c (error_line (AttributeError data "get")) = None ->
        e' = AttributeError data "get"
        /\ w' = World (stdout w ++ [error_line (AttributeError data "get")])
                      (readings w)).
Proof.
  intros Hjson Hd. unfold generate_schema, try_except. rewrite Hjson.
  rewrite (try_block_not_a_dict c data w Hd).
  now apply except_block_not_a_dict.
Qed.

Lemma generate_schema_body_not_an_object_witness :
  exists e' w',
    generate_schema (post (VList [VStr "ssc"]) accepting) fresh = (Raise e', w')
    /\ (console (post (VList [VStr "ssc"]) accepting)
                (error_line (AttributeError (VList [VStr "ssc"]) "get")) = None ->
        e' = AttributeError (VList [VStr "ssc"]) "get"
        /\ w' = World (stdout fresh
                       ++ [error_line (AttributeError (VList [VStr "ssc"]) "get")])
                      (readings fresh)).
Proof.
  apply (generate_schema_body_not_an_object
           (post (VList [VStr "ssc"]) accepting) fresh (VList [VStr "ssc"]));
    reflexivity.
Defined.

(** An [examName] that is not a string (null, a number, a list, an
    object) does not get status 400: [strip] fails, and the handler
    answers with status 200 and the basic fallback, whose [exam] is
    the raw value. *)
Theorem generate_schema_name_not_a_str c w items v :
  get_json c = Return (VDict items) ->
  lookup "examName" items = Some v ->
  is_str v = false ->
  console c (error_line (AttributeError v "strip")) = None ->
  generate_schema c w
  = (Return (fallback_response v (clock c (readings w))),
     World (stdout w ++ [error_line (AttributeError v "strip")]) (S (readings w))).
Proof.
  intros Hjson Hname Hv Hconsole. unfold generate_schema, try_except.
  rewrite Hjson, (try_block_not_a_str c items v w Hname Hv), except_block_dict.
  now rewrite Hconsole, Hname.
Qed.

Lemma generate_schema_name_not_a_str_witness :
  generate_schema (post (VDict [("examName", VNone)]) accepting) fresh
  = (Return (fallback_response VNone (ticking 0)),
     World [error_line (AttributeError VNone "strip")] 1).
Proof.
  apply (generate_schema_name_not_a_str
           (post (VDict [("examName", VNone)]) accepting) fresh
           [("examName", VNone)] VNone); reflexivity.
Defined.

End ServerBehaviour.

(** ** Behaviour of the template on every name *)

Module TemplateBehaviour.
Import Py Server PyStr PyStrFacts PyStrLaws ServerSpec.













Example normalized_name_empty_example :
  exists w',
    generate_schema (post (VDict [("examName", VStr "-")]) accepting) fresh
    = (Return (success_response (ticking 0) "-"), w')
    /\ item (generate_fallback_schema (ticking 0) "-") "exam" = Some (VStr "").
Proof. eexists. split; reflexivity. Qed.


Lemma lower_app a b : lower (a +:+ b) = lower a +:+ lower b.
Proof. apply map_chars_app. Qed.

(** A banking keyword decides, whatever surrounds it: once a name
    holds one of [ibps], [bank], [sbi], [rbi] in any letter case, every
    name that contains it gets the banking template, even when the
    added text holds keywords of the other templates. *)
Theorem banking_keyword_decides now name pre suf :
  occurs_any ["ibps"; "bank"; "sbi"; "rbi"] (lower name) ->
  item (generate_fallback_schema now (pre +:+ name +:+ suf)) "documents"
  = Some (VList banking_requirements).
Proof.
  intros (k & Hk & Hocc). simpl. unfold requirements_for.
  replace (any_in ["ibps"; "bank"; "sbi"; "rbi"] (lower (pre +:+ name +:+ suf)))
    with true; [reflexivity|].
  symmetry. apply any_in_spec. exists k. split; [exact Hk|].
  rewrite !lower_app. now apply occurs_app.
Qed.

Lemma banking_keyword_decides_witness :
  occurs_any ["ibps"; "bank"; "sbi"; "rbi"] (lower "SBI")
  /\ item (generate_fallback_schema (ticking 0) ("upsc ssc " +:+ "SBI" +:+ " neet"))
          "documents"
     = Some (VList banking_requirements).
Proof.
  assert (H : occurs_any ["ibps"; "bank"; "sbi"; "rbi"] (lower "SBI")).
  { exists "sbi". split; [simpl; tauto | now exists "", ""]. }
  split; [exact H|].
  exact (banking_keyword_decides (ticking 0) "SBI" "upsc ssc " " neet" H).
Defined.

Lemma contains_length k s : contains k s = true -> String.length k <= String.length s.
Proof. intros H. now apply occurs_length, contains_spec. Qed.

Lemma any_in_short keywords s :
  Forall (fun k => String.length s < String.length k) keywords ->
  any_in keywords s = false.
Proof.
  intros Hk. apply any_in_false. intros (k & Hin & Hocc).
  apply occurs_length in Hocc.
  rewrite Forall_forall in Hk. specialize (Hk k).
  assert (String.length s < String.length k); [|lia].
  apply Hk. now apply list_elem_of_In.
Qed.

(** A name of fewer than three characters gets the generic template:
    no keyword is that short. *)
Theorem short_name_generic now s :
  String.length s < 3 ->
  item (generate_fallback_schema now s) "documents" = Some (VList generic_requirements).
Proof.
  intros Hs. simpl. unfold requirements_for.
  assert (Hl : String.length (lower s) < 3)
    by (unfold lower; now rewrite map_chars_length).
  rewrite !any_in_short.
  - destruct (contains "ssc" (lower s)) eqn:E; [|reflexivity].
    apply contains_length in E. simpl in E. lia.
  - repeat (constructor; [simpl; lia|]). constructor.
  - repeat (constructor; [simpl; lia|]). constructor.
  - repeat (constructor; [simpl; lia|]). constructor.
Qed.

Lemma short_name_generic_witness :
  String.length "PO" < 3
  /\ item (generate_fallback_schema (ticking 0) "PO") "documents"
     = Some (VList generic_requirements).
Proof.
  assert (H : String.length "PO" < 3) by (simpl; lia).
  split; [exact H | exact (short_name_generic (ticking 0) "PO" H)].
Defined.

(** Every schema asks for a photograph first and a signature second,
    lists two or three documents, and gives every document size
    bounds in kilobytes with [0 < min < max]. *)
Theorem documents_invariant now s :
  exists photograph signature rest,
    item (generate_fallback_schema now s) "documents"
    = Some (VList (photograph :: signature :: rest))
    /\ item photograph "type" = Some (VStr "photograph")
    /\ item signature "type" = Some (VStr "signature")
    /\ length rest <= 1
    /\ Forall (fun d => exists lo hi,
                   size_bounds d = Some (lo, hi) /\ (0 < lo < hi)%Z)
              (photograph :: signature :: rest).
Proof.
  simpl. unfold requirements_for.
  repeat match goal with |- context [if ?b then _ else _] => destruct b end;
    (eexists _, _, _; split; [reflexivity|];
     split; [reflexivity|]; split; [reflexivity|]; split; [simpl; lia|];
     repeat constructor; eexists _, _; (split; [reflexivity | lia])).
Qed.

End TemplateBehaviour.

(** ** Behaviour of the export script on every run *)

Module ExportOnnxBehaviour.
Import Py ExportOnnx ExportOnnxSpec.
Local Open Scope list_scope.

Lemma touch_file_preserves path d q x :
  files d !! q = Some x -> files (touch_file path d) !! q = Some x.
Proof.
  intros Hq. destruct (decide (q = path)) as [->|Hne].
  - now rewrite touch_file_lookup, Hq.
  - now rewrite touch_file_other.
Qed.

Lemma touch_file_dirs path d : dirs (touch_file path d) = dirs d.
Proof. unfold touch_file. now destruct (files d !! path). Qed.

Lemma touch_file_exists path d : is_Some (files (touch_file path d) !! path).
Proof. rewrite touch_file_lookup. eauto. Qed.


Lemma main_fs c w :
  fs (main c w)
  = touch_file (placeholder LayoutLM)
      (match export_attempt c (fs w) with
       | (Return _, d) => d
       | (Raise _, d) => touch_file (placeholder DistilBERT) d
       end).
Proof.
  destruct (main_effect c w) as [_ ->].
  destruct (create_layoutlm_placeholder_effect (export_distilbert c w)) as [_ ->].
  now destruct (export_distilbert_effect c w) as [_ ->].
Qed.



(** The script's own writes destroy nothing: every file on the disk
    the export attempt leaves is still there, with its contents,
    when the main block ends, and the directories are those the
    attempt left.  In particular a model file already at a
    placeholder's path is not emptied. *)
Theorem main_preserves_files c w q x :
  files (snd (export_attempt c (fs w))) !! q = Some x ->
  files (fs (main c w)) !! q = Some x
  /\ dirs (fs (main c w)) = dirs (snd (export_attempt c (fs w))).
Proof.
  intros Hq. rewrite main_fs.
  destruct (export_attempt c (fs w)) as [[u|e] d]; simpl in *.
  - split; [now apply touch_file_preserves | apply touch_file_dirs].
  - split; [now do 2 apply touch_file_preserves | now rewrite !touch_file_dirs].
Qed.

Lemma main_preserves_files_witness :
  files (snd (export_attempt failing trained)) !! placeholder LayoutLM = Some "LAYOUTLM"
  /\ files (fs (main failing (World trained [] []))) !! placeholder LayoutLM
     = Some "LAYOUTLM"
  /\ dirs (fs (main failing (World trained [] [])))
     = dirs (snd (export_attempt failing trained)).
Proof.
  assert (H : files (snd (export_attempt failing trained)) !! placeholder LayoutLM
              = Some "LAYOUTLM") by reflexivity.
  split; [exact H|].
  exact (main_preserves_files failing (World trained [] []) (placeholder LayoutLM)
           "LAYOUTLM" H).
Defined.

(** Creating the LayoutLM placeholder again changes nothing on the
    disk: the second touch finds the file. *)
Theorem create_layoutlm_placeholder_idempotent w :
  fs (create_layoutlm_placeholder (create_layoutlm_placeholder w))
  = fs (create_layoutlm_placeholder w).
Proof.
  destruct (create_layoutlm_placeholder_effect (create_layoutlm_placeholder w))
    as [_ ->].
  destruct (create_layoutlm_placeholder_effect w) as [_ ->].
  destruct (touch_file_exists (placeholder LayoutLM) (fs w)) as [x Hx].
  unfold touch_file at 1. now rewrite Hx.
Qed.

End ExportOnnxBehaviour.
